(** * Year review: a shallow embedding of [src/app.py]

    The module defines two globals, [default] and [present], and one
    function, [review].  Python values are embedded as a tagged union
    carrying their runtime type; the module globals live in a store that
    [review] reads at call time; exceptions are explicit results; and the
    call to [random.randint] is interpreted in a monad of finite
    distributions with rational weights, so that statements about which
    results are possible and how likely they are can be made and proved. *)

From Stdlib Require Import ZArith QArith List String Ascii Bool Lia.
From Stdlib Require Import SpecFloat DecimalString.
Import ListNotations.

Local Open Scope Z_scope.
Local Open Scope list_scope.
Local Open Scope string_scope.

(** ** Python values and their runtime types *)

(** The built-in types that matter here, plus plain user-defined classes
    (deriving directly from [object] and defining no special methods). *)
Inductive py_type : Type :=
| TObject
| TInt
| TBool
| TFloat
| TStr
| TNoneType
| TList
| TClass (name : string).

#[warnings="-register-all"]
Inductive value : Type :=
| VInt (z : Z)                (* int: unbounded *)
| VBool (b : bool)            (* bool: True / False *)
| VFloat (f : spec_float)     (* float: IEEE 754 binary64 datum *)
| VStr (s : string)
| VNone
| VList (l : list value)
| VObject (cls : string).     (* instance of a plain user-defined class *)

(** [type(v)] *)
Definition type_of (v : value) : py_type :=
  match v with
  | VInt _ => TInt
  | VBool _ => TBool
  | VFloat _ => TFloat
  | VStr _ => TStr
  | VNone => TNoneType
  | VList _ => TList
  | VObject cls => TClass cls
  end.

(** [t.__name__] *)
Definition type_name (t : py_type) : string :=
  match t with
  | TObject => "object"
  | TInt => "int"
  | TBool => "bool"
  | TFloat => "float"
  | TStr => "str"
  | TNoneType => "NoneType"
  | TList => "list"
  | TClass name => name
  end.

(** [t.__mro__]: the type itself followed by its bases.  [bool] is a
    subclass of [int]. *)
Definition mro (t : py_type) : list py_type :=
  match t with
  | TObject => [TObject]
  | TBool => [TBool; TInt; TObject]
  | _ => [t; TObject]
  end.

Definition py_type_eqb (a b : py_type) : bool :=
  match a, b with
  | TObject, TObject | TInt, TInt | TBool, TBool | TFloat, TFloat
  | TStr, TStr | TNoneType, TNoneType | TList, TList => true
  | TClass n, TClass m => String.eqb n m
  | _, _ => false
  end.

(** [isinstance(v, t)]: [t] occurs in the MRO of [type(v)]. *)
Definition isinstance (v : value) (t : py_type) : bool :=
  existsb (py_type_eqb t) (mro (type_of v)).

(** The integer types of Python's data model: [int] and [bool]. *)
Definition integral_type (t : py_type) : bool :=
  match t with
  | TInt | TBool => true
  | _ => false
  end.

(** ** Results and exceptions *)

Inductive exn_kind : Type :=
| TypeError
| ValueError
| IndexError
| KeyError.

Inductive outcome (A : Type) : Type :=
| Return (a : A)
| Raise (k : exn_kind) (msg : string).

Arguments Return {A} a.
Arguments Raise {A} k msg.

(** ** Strings *)

(** [str(n)] for an int: decimal digits, with a leading minus sign. *)
Definition str_int (n : Z) : string :=
  NilZero.string_of_int (Z.to_int n).

(** [template.format(x = arg)] for a template whose replacement fields are
    plain names: literal text is copied, doubled braces stand for one
    brace, a field named x is replaced by [arg].  A field with another name
    raises KeyError, an unmatched brace raises ValueError. *)
Inductive fmt_mode : Type :=
| Lit
| Field (name : string).

Fixpoint format_from (mode : fmt_mode) (template arg : string) : outcome string :=
  match template with
  | EmptyString =>
      match mode with
      | Lit => Return EmptyString
      | Field _ => Raise ValueError "expected '}' before end of string"
      end
  | String c rest =>
      match mode with
      | Lit =>
          if Ascii.eqb c "{"%char then
            match rest with
            | String c' rest' =>
                if Ascii.eqb c' "{"%char then
                  match format_from Lit rest' arg with
                  | Return s => Return (String "{"%char s)
                  | Raise k m => Raise k m
                  end
                else format_from (Field EmptyString) rest arg
            | EmptyString => Raise ValueError "Single '{' encountered in format string"
            end
          else if Ascii.eqb c "}"%char then
            match rest with
            | String c' rest' =>
                if Ascii.eqb c' "}"%char then
                  match format_from Lit rest' arg with
                  | Return s => Return (String "}"%char s)
                  | Raise k m => Raise k m
                  end
                else Raise ValueError "Single '}' encountered in format string"
            | EmptyString => Raise ValueError "Single '}' encountered in format string"
            end
          else
            match format_from Lit rest arg with
            | Return s => Return (String c s)
            | Raise k m => Raise k m
            end
      | Field name =>
          if Ascii.eqb c "}"%char then
            if String.eqb name "x" then
              match format_from Lit rest arg with
              | Return s => Return (arg ++ s)
              | Raise k m => Raise k m
              end
            else Raise KeyError ("'" ++ name ++ "'")
          else format_from (Field (name ++ String c EmptyString)) rest arg
      end
  end.

Definition format (template arg : string) : outcome string :=
  format_from Lit template arg.

(** [sub in s] *)
Definition contains (sub s : string) : Prop :=
  exists pre post, s = pre ++ sub ++ post.

(** ** Comparisons against an int *)

(** Exact comparison of a float with an integer; [None] for NaN. *)
Definition float_compare_int (f : spec_float) (n : Z) : option comparison :=
  match f with
  | S754_zero _ => Some (0 ?= n)%Z
  | S754_infinity neg => Some (if neg then Lt else Gt)
  | S754_nan => None
  | S754_finite neg m e =>
      let sm := if neg then Z.neg m else Z.pos m in
      if (0 <=? e)%Z then Some (sm * 2 ^ e ?= n)%Z
      else Some (sm ?= n * 2 ^ (- e))%Z
  end.

(** [v > n] for an int [n].  Numbers compare by value; the other types do
    not support the ordering and the operator raises TypeError. *)
Definition py_gt (v : value) (n : Z) : outcome bool :=
  match v with
  | VInt z => Return (z >? n)%Z
  | VBool b => Return (Z.b2z b >? n)%Z
  | VFloat f =>
      Return (match float_compare_int f n with Some Gt => true | _ => false end)
  | _ =>
      Raise TypeError
        ("'>' not supported between instances of '"
           ++ type_name (type_of v) ++ "' and 'int'")
  end.

(** [v == n] for an int [n].  Never raises: values of unrelated types are
    simply unequal. *)
Definition py_eq (v : value) (n : Z) : bool :=
  match v with
  | VInt z => (z =? n)%Z
  | VBool b => (Z.b2z b =? n)%Z
  | VFloat f => match float_compare_int f n with Some Eq => true | _ => false end
  | _ => false
  end.


(** ** Module state and the monad of program fragments *)

(** The module's globals.  [review] reads them at call time. *)
Record globals : Type := mkGlobals {
  default : list string;
  present : Z
}.

(** The bindings made when the module is imported. *)
Definition module_init : globals :=
  {| default := ["Meh"; "Boring"; "What about it?"; "Nothing special"];
     present := 2021 |}.

(** Finite distributions: outcomes paired with their probability. *)
Definition dist (A : Type) : Type := list (Q * A).

Definition dret {A} (a : A) : dist A := [(1%Q, a)].

Definition dbind {A B} (d : dist A) (f : A -> dist B) : dist B :=
  flat_map (fun pa => map (fun qb => (Qmult (fst pa) (fst qb), snd qb)) (f (snd pa))) d.

(** Probability of an event and total mass. *)
Definition prob {A} (ev : A -> bool) (d : dist A) : Q :=
  fold_right Qplus 0%Q (map fst (filter (fun pa => ev (snd pa)) d)).

Definition mass {A} (d : dist A) : Q := prob (fun _ => true) d.

(** A program fragment: from the globals to a distribution over a result
    (a value or a raised exception) and the globals afterwards. *)
Definition M (A : Type) : Type := globals -> dist (outcome A * globals).

Definition ret {A} (a : A) : M A := fun g => dret (Return a, g).

Definition raise {A} (k : exn_kind) (msg : string) : M A :=
  fun g => dret (Raise k msg, g).

Definition bind {A B} (m : M A) (f : A -> M B) : M B :=
  fun g =>
    dbind (m g) (fun r =>
      match fst r with
      | Return a => f a (snd r)
      | Raise k msg => dret (Raise k msg, snd r)
      end).

Notation "x <- m ;; k" := (bind m (fun x => k))
  (at level 100, m at next level, right associativity).

(** Read a global. *)
Definition load {A} (name : globals -> A) : M A :=
  fun g => dret (Return (name g), g).

(** Run a computation that may raise but touches neither the globals nor
    the random source. *)
Definition lift {A} (o : outcome A) : M A :=
  fun g => dret (o, g).

(** ** The part of the standard library that [review] calls *)

(** [len(l)] *)
Definition len {A} (l : list A) : Z := Z.of_nat (List.length l).

(** [l[i]]: a negative index counts from the end; an index outside the
    list raises IndexError. *)
Definition getitem (l : list string) (i : Z) : outcome string :=
  let j := if (i <? 0)%Z then i + len l else i in
  if ((0 <=? j) && (j <? len l))%Z%bool then
    match nth_error l (Z.to_nat j) with
    | Some s => Return s
    | None => Raise IndexError "list index out of range"
    end
  else Raise IndexError "list index out of range".

(** [random._randbelow(n)] for [n > 0]: every integer of [[0, n)] with
    probability [1/n]. *)
Definition randbelow (n : Z) : M Z :=
  fun g =>
    map (fun i => (Qmake 1 (Z.to_pos n), (Return (Z.of_nat i), g)))
        (seq 0 (Z.to_nat n)).

(** [random.randrange(start, stop)], as in CPython's Lib/random.py. *)
Definition randrange (start stop : Z) : M Z :=
  let width := stop - start in
  if (width >? 0)%Z then
    r <- randbelow width ;;
    ret (start + r)
  else
    raise ValueError
      ("empty range for randrange() (" ++ str_int start ++ ", "
         ++ str_int stop ++ ", " ++ str_int width ++ ")").

(** [random.randint(a, b)]: both bounds included. *)
Definition randint (a b : Z) : M Z := randrange a (b + 1).

(** ** [review] *)

Definition review (year : value) : M string :=
  if negb (isinstance year TInt) then
    msg <- lift (format "Expected int, received {x}" (type_name (type_of year))) ;;
    raise TypeError msg
  else
    p <- load present ;;
    future <- lift (py_gt year p) ;;
    if future : bool then
      x <- load present ;;
      msg <- lift (format "Can't review a year that has not happened yet (year > {x})"
                          (str_int x)) ;;
      raise ValueError msg
    else if py_eq year 0 then ret "Jesus Christ what a year!"
    else if py_eq year 42 then ret "A year worth living for"
    else if py_eq year 1337 then ret ":sunglasses:"
    else if py_eq year 1984 then ret "You never felt alone"
    else if py_eq year 1987 then ret "https://www.youtube.com/watch?v=dQw4w9WgXcQ"
    else if py_eq year 2020 then ret "Sad year :("
    else
      d <- load default ;;
      d' <- load default ;;
      i <- randint 0 (len d' - 1) ;;
      lift (getitem d i).


(** ** Reading distributions *)

Definition result_of {A} (r : Q * (outcome A * globals)) : outcome A := fst (snd r).

Definition globals_after {A} (r : Q * (outcome A * globals)) : globals := snd (snd r).

(** The result is a returned string that belongs to [l]. *)
Definition returns_in (l : list string) (o : outcome string) : Prop :=
  exists m, o = Return m /\ In m l.

(** The result is an exception of kind [k]. *)
Definition raises {A} (k : exn_kind) (o : outcome A) : Prop :=
  exists msg, o = Raise k msg.

(** Boolean test: the result is the returned string [m]. *)
Definition returns (m : string) (o : outcome string) : bool :=
  match o with
  | Return a => String.eqb a m
  | Raise _ _ => false
  end.

(** The fragment leaves the globals as it found them, whatever it returns
    or raises and whatever the random source gives. *)
Definition preserves {A} (m : M A) : Prop :=
  forall g, Forall (fun r => globals_after r = g) (m g).

(** The states the module can be in: as imported, and after any call of
    [review], with any argument and any random draw. *)
Inductive reachable : globals -> Prop :=
| reach_import : reachable module_init
| reach_call g v r :
    reachable g -> In r (review v g) -> reachable (globals_after r).

(** The else branch of [review]. *)
Definition pick_default : M string :=
  d <- load default ;;
  d' <- load default ;;
  i <- randint 0 (len d' - 1) ;;
  lift (getitem d i).

(** The only ways in which [review v] may end in state [g]: it returns,
    for an int or bool that is not above [present]; it raises TypeError,
    for an input that is not of an integer type; it raises ValueError, for
    an int above [present]. *)
Definition expected_end (v : value) (g : globals) (o : outcome string) : Prop :=
  match o with
  | Return _ =>
      integral_type (type_of v) = true /\ py_gt v (present g) = Return false
  | Raise TypeError _ => integral_type (type_of v) = false
  | Raise ValueError _ =>
      integral_type (type_of v) = true /\ py_gt v (present g) = Return true
  | Raise _ _ => False
  end.

(** The float 2525.0. *)
Definition float_2525 : spec_float := S754_finite false 5552533720268800 (-41).

(** ** The unit tests of [test/test_app.py]

    The test module imports [review], [default] and [present] from the
    module under test; its names [default] and [present] denote what the
    module's globals denote (nothing is rebound after the import). *)

(** What [unittest] records against a test: a failed assertion, or an
    exception that escaped the code under test.  The text that comes with
    a failed assertion is not modelled. *)
Inductive problem : Type :=
| Failure
| Error (k : exn_kind) (msg : string).

(** Test code: a step gives a value or stops with a problem. *)
Definition T (A : Type) : Type := globals -> dist ((A + problem) * globals).

Definition tret {A} (a : A) : T A := fun g => dret (inl a, g).

(** [self.fail()] *)
Definition fail {A} : T A := fun g => dret (inr Failure, g).

Definition tbind {A B} (t : T A) (f : A -> T B) : T B :=
  fun g =>
    dbind (t g) (fun r =>
      match fst r with
      | inl a => f a (snd r)
      | inr p => dret (inr p, snd r)
      end).

Notation "x <~ t ;; k" := (tbind t (fun x => k))
  (at level 100, t at next level, right associativity).

(** Evaluate an expression of the module under test; what it raises
    escapes as an error of the test. *)
Definition call {A} (m : M A) : T A :=
  fun g =>
    map (fun r => (fst r,
                   (match fst (snd r) with
                    | Return a => inl a
                    | Raise k msg => inr (Error k msg)
                    end, snd (snd r))))
        (m g).

Definition exn_kind_eqb (a b : exn_kind) : bool :=
  match a, b with
  | TypeError, TypeError | ValueError, ValueError
  | IndexError, IndexError | KeyError, KeyError => true
  | _, _ => false
  end.

(** [member in container] for a list of strings. *)
Definition py_in (member : string) (container : list string) : bool :=
  existsb (String.eqb member) container.

(** [self.assertIn(member, container)] *)
Definition assertIn (member : string) (container : list string) : T unit :=
  if py_in member container then tret tt else fail.

(** [self.assertEqual(first, second)] *)
Definition assertEqual (first second : string) : T unit :=
  if String.eqb first second then tret tt else fail.

(** [self.assertRaises(k, f, args)]: passes when the call raises [k],
    fails when it returns, and lets any other exception through. *)
Definition assertRaises {A} (k : exn_kind) (m : M A) : T unit :=
  fun g =>
    map (fun r => (fst r,
                   (match fst (snd r) with
                    | Return _ => inr Failure
                    | Raise k' msg =>
                        if exn_kind_eqb k' k then inl tt else inr (Error k' msg)
                    end, snd (snd r))))
        (m g).

(** [with self.subTest(...): body]: a problem in the body is recorded and
    the test goes on after the block. *)
Definition subTest (body : T unit) : T (list problem) :=
  fun g =>
    map (fun r => (fst r,
                   (match fst (snd r) with
                    | inl _ => inl []
                    | inr p => inl [p]
                    end, snd (snd r))))
        (body g).

Definition test_review_should_return_default : T unit :=
  r <~ call (review (VInt 1)) ;;
  d <~ call (load default) ;;
  _ <~ assertIn r d ;;
  r <~ call (review (VInt (-10))) ;;
  d <~ call (load default) ;;
  _ <~ assertIn r d ;;
  r <~ call (review (VInt 2021)) ;;
  d <~ call (load default) ;;
  assertIn r d.

Definition test_review_should_not_return_default : T (list problem) :=
  p0 <~ subTest (r <~ call (review (VInt 0)) ;;
                 assertEqual r "Jesus Christ what a year!") ;;
  p1 <~ subTest (r <~ call (review (VInt 42)) ;;
                 assertEqual r "A year worth living for") ;;
  p2 <~ subTest (r <~ call (review (VInt 1337)) ;;
                 assertEqual r ":sunglasses:") ;;
  p3 <~ subTest (r <~ call (review (VInt 1984)) ;;
                 assertEqual r "You never felt alone") ;;
  p4 <~ subTest (r <~ call (review (VInt 1987)) ;;
                 assertEqual r "https://www.youtube.com/watch?v=dQw4w9WgXcQ") ;;
  p5 <~ subTest (r <~ call (review (VInt 2020)) ;;
                 assertEqual r "Sad year :(") ;;
  tret (p0 ++ p1 ++ p2 ++ p3 ++ p4 ++ p5)%list.

Definition test_review_future_year_raise : T unit :=
  p <~ call (load present) ;;
  assertRaises ValueError (review (VInt (p + 1))).

(** Every possible result satisfies [P]. *)
Definition always {A} (P : A -> Prop) (d : dist A) : Prop :=
  Forall (fun r => P (snd r)) d.

(** With probability 1 the fragment returns a value that satisfies [P],
    and the globals are as before. *)
Definition surely {A} (P : A -> Prop) (m : M A) (g : globals) : Prop :=
  (mass (m g) == 1)%Q /\
  always (fun r => exists a, fst r = Return a /\ P a /\ snd r = g) (m g).

(** The same for test code. *)
Definition tsurely {A} (P : A -> Prop) (t : T A) (g : globals) : Prop :=
  (mass (t g) == 1)%Q /\
  always (fun r => exists a, fst r = inl a /\ P a /\ snd r = g) (t g).

(** The six years with an answer of their own, as the branches of
    [review] list them. *)
Definition special_years : list (Z * string) :=
  [(0, "Jesus Christ what a year!");
   (42, "A year worth living for");
   (1337, ":sunglasses:");
   (1984, "You never felt alone");
   (1987, "https://www.youtube.com/watch?v=dQw4w9WgXcQ");
   (2020, "Sad year :(")].

(** How a call of [review] in state [g] may end, whatever the argument:
    the globals are as before, a returned string is one of the six fixed
    answers or an entry of [default], an exception is a TypeError or a
    ValueError. *)
Definition closed_end (g : globals) (og : outcome string * globals) : Prop :=
  snd og = g /\
  match fst og with
  | Return m => In m (map snd special_years) \/ In m (default g)
  | Raise k _ => k = TypeError \/ k = ValueError
  end.

(** * Properties *)

Lemma isinstance_int_integral (v : value) :
  isinstance v TInt = integral_type (type_of v).
Proof. destruct v; reflexivity. Qed.

Lemma append_empty_r (s : string) : s ++ "" = s.
Proof. induction s as [|c s IH]; simpl; [reflexivity | now rewrite IH]. Qed.

Lemma format_received (name : string) :
  format "Expected int, received {x}" name
  = Return ("Expected int, received " ++ name).
Proof. unfold format; simpl. now rewrite append_empty_r. Qed.

Lemma format_not_happened (x : string) :
  format "Can't review a year that has not happened yet (year > {x})" x
  = Return ("Can't review a year that has not happened yet (year > " ++ x ++ ")").
Proof. reflexivity. Qed.

Lemma review_non_integral (v : value) (g : globals) :
  integral_type (type_of v) = false ->
  review v g =
  dret (Raise TypeError ("Expected int, received " ++ type_name (type_of v)), g).
Proof.
  intros H. unfold review.
  rewrite isinstance_int_integral, H. simpl negb. cbv iota.
  unfold bind, lift. rewrite format_received. reflexivity.
Qed.

Lemma review_int_future (y : Z) (g : globals) :
  y > present g ->
  review (VInt y) g =
  dret (Raise ValueError
          ("Can't review a year that has not happened yet (year > "
             ++ str_int (present g) ++ ")"), g).
Proof.
  intros H. apply Z.gt_lt, Z.gtb_lt in H.
  unfold review, bind, load, lift, dbind, dret. simpl.
  rewrite H. reflexivity.
Qed.

Lemma review_int_past (y : Z) :
  y <= present module_init ->
  review (VInt y) module_init =
  if (y =? 0)%Z then dret (Return "Jesus Christ what a year!", module_init)
  else if (y =? 42)%Z then dret (Return "A year worth living for", module_init)
  else if (y =? 1337)%Z then dret (Return ":sunglasses:", module_init)
  else if (y =? 1984)%Z then dret (Return "You never felt alone", module_init)
  else if (y =? 1987)%Z
       then dret (Return "https://www.youtube.com/watch?v=dQw4w9WgXcQ", module_init)
  else if (y =? 2020)%Z then dret (Return "Sad year :(", module_init)
  else pick_default module_init.
Proof.
  intros H.
  assert (Hgt : (y >? 2021)%Z = false) by (simpl in H; lia).
  unfold review, bind, load, lift, dbind, dret. simpl.
  rewrite Hgt. simpl.
  repeat match goal with
         | |- context [(y =? ?k)%Z] => destruct (y =? k)%Z; [reflexivity|]
         end.
  reflexivity.
Qed.

Lemma pick_default_init :
  pick_default module_init =
  map (fun m => (Qmake 1 4, (Return m, module_init))) (default module_init).
Proof. reflexivity. Qed.

(** ** Frame lemmas: who touches the globals *)

Lemma preserves_ret {A} (a : A) : preserves (ret a).
Proof. intros g. repeat constructor. Qed.

Lemma preserves_raise {A} (k : exn_kind) (msg : string) : preserves (@raise A k msg).
Proof. intros g. repeat constructor. Qed.

Lemma preserves_load {A} (name : globals -> A) : preserves (load name).
Proof. intros g. repeat constructor. Qed.

Lemma preserves_lift {A} (o : outcome A) : preserves (lift o).
Proof. intros g. repeat constructor. Qed.

Lemma preserves_randbelow (n : Z) : preserves (randbelow n).
Proof.
  intros g. unfold randbelow. apply Forall_forall.
  intros r Hr. apply in_map_iff in Hr as [i [<- _]]. reflexivity.
Qed.

Lemma preserves_bind {A B} (m : M A) (f : A -> M B) :
  preserves m -> (forall a, preserves (f a)) -> preserves (bind m f).
Proof.
  intros Hm Hf g. unfold bind, dbind. apply Forall_forall.
  intros r Hr.
  apply in_flat_map in Hr as [pa [Hpa Hr]].
  apply in_map_iff in Hr as [qb [<- Hqb]].
  specialize (Hm g). rewrite Forall_forall in Hm. specialize (Hm pa Hpa).
  destruct pa as [p [o g1]]. unfold globals_after in *. simpl in *. subst g1.
  destruct o as [a | k msg].
  - specialize (Hf a g). rewrite Forall_forall in Hf. exact (Hf qb Hqb).
  - destruct Hqb as [<- | []]. reflexivity.
Qed.

Create HintDb frame.
#[local] Hint Resolve preserves_ret preserves_raise preserves_load
  preserves_lift preserves_randbelow : frame.

Ltac frame :=
  repeat first
    [ solve [auto with frame]
    | apply preserves_bind; [ | intros ? ]
    | match goal with
      | |- preserves (if ?c then _ else _) => destruct c
      end ].

Lemma preserves_randint (a b : Z) : preserves (randint a b).
Proof. unfold randint, randrange. frame. Qed.

#[local] Hint Resolve preserves_randint : frame.

Lemma preserves_review (year : value) : preserves (review year).
Proof. unfold review. frame. Qed.

Lemma reachable_init (g : globals) : reachable g -> g = module_init.
Proof.
  induction 1 as [| g v r _ IH Hr]; [reflexivity | subst g].
  pose proof (preserves_review v module_init) as Hp.
  rewrite Forall_forall in Hp. exact (Hp r Hr).
Qed.

Lemma Forall_pick_default (P : Q * (outcome string * globals) -> Prop) :
  Forall (fun m => P (Qmake 1 4, (Return m, module_init))) (default module_init) ->
  Forall P (pick_default module_init).
Proof.
  rewrite pick_default_init. intros H. apply Forall_forall.
  intros r Hr. apply in_map_iff in Hr as [m [<- Hm]].
  rewrite Forall_forall in H. exact (H m Hm).
Qed.

Lemma not_special (y : Z) :
  ~ In y [0; 42; 1337; 1984; 2020; 1987] ->
  (y =? 0)%Z = false /\ (y =? 42)%Z = false /\ (y =? 1337)%Z = false /\
  (y =? 1984)%Z = false /\ (y =? 1987)%Z = false /\ (y =? 2020)%Z = false.
Proof.
  intros H. repeat split; apply Z.eqb_neq; intros ->; apply H; simpl; tauto.
Qed.

Lemma review_int_default (y : Z) :
  y <= present module_init ->
  ~ In y [0; 42; 1337; 1984; 2020; 1987] ->
  review (VInt y) module_init = pick_default module_init.
Proof.
  intros Hle Hns. rewrite (review_int_past y Hle).
  destruct (not_special y Hns) as (-> & -> & -> & -> & -> & ->). reflexivity.
Qed.

(** [float_2525] denotes exactly 2525. *)
Example float_2525_value : float_compare_int float_2525 2525 = Some Eq.
Proof. reflexivity. Qed.

(** ** Sample calls, as in the unit tests *)

Example review_default_samples :
  Forall (fun r => returns_in (default module_init) (result_of r))
         (review (VInt 1) module_init ++ review (VInt (-10)) module_init
            ++ review (VInt 2021) module_init)%list.
Proof.
  repeat (apply Forall_cons; [eexists; split; [reflexivity | simpl; tauto] |]).
  apply Forall_nil.
Qed.

Example review_next_year_sample :
  Forall (fun r => raises ValueError (result_of r))
         (review (VInt (present module_init + 1)) module_init).
Proof. repeat constructor. eexists. reflexivity. Qed.

(** ** The claims *)

(** C1: for every int [y] with [y <= present] (2021) that is none of the
    special years 0, 42, 1337, 1984, 2020, 1987, [review(y)] returns, and
    whatever the random draw, the returned string is a member of [default].
    The bound is inclusive: the same holds of [review(2021)]. *)
Theorem review_default_member (y : Z) :
  y <= present module_init ->
  ~ In y [0; 42; 1337; 1984; 2020; 1987] ->
  (mass (review (VInt y) module_init) == 1)%Q /\
  Forall (fun r => returns_in (default module_init) (result_of r))
         (review (VInt y) module_init) /\
  Forall (fun r => returns_in (default module_init) (result_of r))
         (review (VInt 2021) module_init).
Proof.
  intros Hle Hns.
  assert (Hpick : Forall (fun r => returns_in (default module_init) (result_of r))
                         (pick_default module_init)).
  { apply Forall_pick_default, Forall_forall. intros m Hm.
    exists m. split; [reflexivity | exact Hm]. }
  rewrite (review_int_default y Hle Hns).
  split; [reflexivity | split; [exact Hpick |]].
  rewrite (review_int_default 2021); [exact Hpick | simpl; lia | simpl; lia].
Qed.

Lemma review_default_member_witness :
  2021 <= present module_init /\
  ~ In 2021 [0; 42; 1337; 1984; 2020; 1987] /\
  (mass (review (VInt 2021) module_init) == 1)%Q /\
  Forall (fun r => returns_in (default module_init) (result_of r))
         (review (VInt 2021) module_init).
Proof.
  assert (H1 : 2021 <= present module_init) by (simpl; lia).
  assert (H2 : ~ In 2021 [0; 42; 1337; 1984; 2020; 1987]) by (simpl; lia).
  split; [exact H1 | split; [exact H2 |]].
  destruct (review_default_member 2021 H1 H2) as (Hm & Hf & _).
  split; [exact Hm | exact Hf].
Defined.

(** C2: each special year has its fixed answer, returned with certainty:
    0, 42, 1337, 1984, 1987 and 2020. *)
Theorem review_special_years :
  review (VInt 0) module_init
    = dret (Return "Jesus Christ what a year!", module_init) /\
  review (VInt 42) module_init
    = dret (Return "A year worth living for", module_init) /\
  review (VInt 1337) module_init
    = dret (Return ":sunglasses:", module_init) /\
  review (VInt 1984) module_init
    = dret (Return "You never felt alone", module_init) /\
  review (VInt 1987) module_init
    = dret (Return "https://www.youtube.com/watch?v=dQw4w9WgXcQ", module_init) /\
  review (VInt 2020) module_init
    = dret (Return "Sad year :(", module_init).
Proof. repeat split; reflexivity. Qed.

(** C3: for every int [y > present] (2021), [review(y)] raises ValueError
    with certainty; the message starts with the text "Can't review a year
    that has not happened yet" and contains the boundary value 2021. *)
Theorem review_future_year (y : Z) :
  y > present module_init ->
  exists msg,
    review (VInt y) module_init = dret (Raise ValueError msg, module_init) /\
    msg = "Can't review a year that has not happened yet (year > 2021)" /\
    prefix "Can't review a year that has not happened yet" msg = true /\
    contains (str_int (present module_init)) msg /\
    str_int (present module_init) = "2021".
Proof.
  intros H. eexists. split; [exact (review_int_future y module_init H) |].
  split; [reflexivity | split; [reflexivity | split; [| reflexivity]]].
  exists "Can't review a year that has not happened yet (year > ", ")".
  reflexivity.
Qed.

Lemma review_future_year_witness :
  2022 > present module_init /\
  exists msg,
    review (VInt 2022) module_init = dret (Raise ValueError msg, module_init) /\
    msg = "Can't review a year that has not happened yet (year > 2021)" /\
    prefix "Can't review a year that has not happened yet" msg = true /\
    contains (str_int (present module_init)) msg /\
    str_int (present module_init) = "2021".
Proof.
  assert (H : 2022 > present module_init) by (simpl; lia).
  split; [exact H | exact (review_future_year 2022 H)].
Defined.

(** C4: for every input whose runtime type is not an integer type (a
    float, a string, None, a list, an instance of a user class), in any
    state of the module, [review] raises TypeError with certainty, and the
    message contains the name of the runtime type of the input. *)
Theorem review_rejects_non_int (v : value) (g : globals) :
  integral_type (type_of v) = false ->
  review v g
    = dret (Raise TypeError ("Expected int, received " ++ type_name (type_of v)), g) /\
  contains (type_name (type_of v))
           ("Expected int, received " ++ type_name (type_of v)).
Proof.
  intros H. split; [exact (review_non_integral v g H) |].
  exists "Expected int, received ", "". now rewrite append_empty_r.
Qed.

Lemma review_rejects_non_int_witness :
  integral_type (type_of (VStr "2020")) = false /\
  review (VStr "2020") module_init
    = dret (Raise TypeError "Expected int, received str", module_init) /\
  contains "str" "Expected int, received str".
Proof.
  assert (H : integral_type (type_of (VStr "2020")) = false) by reflexivity.
  split; [exact H | exact (review_rejects_non_int (VStr "2020") module_init H)].
Defined.

(** C5, as stated, fails: a bool passes [isinstance(year, int)], so neither
    [review(False)] nor [review(True)] raises TypeError. *)
Lemma review_bool_not_rejected :
  ~ Forall (fun r => raises TypeError (result_of r))
           (review (VBool false) module_init) /\
  ~ Forall (fun r => raises TypeError (result_of r))
           (review (VBool true) module_init).
Proof.
  split; intros H; inversion H as [| r l [msg Hr] _]; discriminate Hr.
Qed.

(** C5, amended: [bool] is a subclass of [int], so a bool passes the type
    check and [review] treats it as the int it equals: [review(False)] is
    [review(0)], which returns the answer of year 0, and [review(True)] is
    [review(1)], which returns a member of [default].  No bool input raises
    TypeError. *)
Theorem review_bool_as_int (b : bool) (g : globals) :
  isinstance (VBool b) TInt = true /\
  review (VBool b) g = review (VInt (Z.b2z b)) g /\
  review (VBool false) module_init
    = dret (Return "Jesus Christ what a year!", module_init) /\
  Forall (fun r => returns_in (default module_init) (result_of r))
         (review (VBool true) module_init) /\
  Forall (fun r => ~ raises TypeError (result_of r))
         (review (VBool b) module_init).
Proof.
  split; [destruct b; reflexivity |].
  split; [destruct b; reflexivity |].
  split; [reflexivity |].
  split.
  - change (review (VBool true) module_init) with (pick_default module_init).
    apply Forall_pick_default, Forall_forall. intros m Hm.
    exists m. split; [reflexivity | exact Hm].
  - destruct b; repeat constructor; intros [msg Hr]; discriminate Hr.
Qed.

(** C6: for every non-special int [y <= 2021], [review(y)] is the else
    branch: it draws [i = randint(0, len(default) - 1)], which is each of
    0, 1, 2, 3 with probability 1/4 and nothing else, and returns
    [default[i]].  The four entries of [default] are distinct, so each of
    them is returned with probability exactly 1/4, and each is a possible
    result. *)
Theorem review_uniform_choice (y : Z) :
  y <= present module_init ->
  ~ In y [0; 42; 1337; 1984; 2020; 1987] ->
  review (VInt y) module_init
    = (i <- randint 0 (len (default module_init) - 1) ;;
       lift (getitem (default module_init) i)) module_init /\
  randint 0 (len (default module_init) - 1) module_init
    = map (fun i => (Qmake 1 4, (Return i, module_init))) [0; 1; 2; 3] /\
  len (default module_init) = 4 /\
  NoDup (default module_init) /\
  Forall (fun m =>
            (prob (fun og => returns m (fst og)) (review (VInt y) module_init)
             == Qmake 1 4)%Q /\
            In (Return m) (map result_of (review (VInt y) module_init)))
         (default module_init).
Proof.
  intros Hle Hns. rewrite (review_int_default y Hle Hns).
  split; [reflexivity | split; [reflexivity | split; [reflexivity |]]].
  split.
  - repeat constructor; simpl; intuition discriminate.
  - repeat constructor; simpl; tauto.
Qed.

Lemma review_uniform_choice_witness :
  1 <= present module_init /\
  ~ In 1 [0; 42; 1337; 1984; 2020; 1987] /\
  Forall (fun m =>
            (prob (fun og => returns m (fst og)) (review (VInt 1) module_init)
             == Qmake 1 4)%Q /\
            In (Return m) (map result_of (review (VInt 1) module_init)))
         (default module_init).
Proof.
  assert (H1 : 1 <= present module_init) by (simpl; lia).
  assert (H2 : ~ In 1 [0; 42; 1337; 1984; 2020; 1987]) by (simpl; lia).
  split; [exact H1 | split; [exact H2 |]].
  exact (proj2 (proj2 (proj2 (proj2 (review_uniform_choice 1 H1 H2))))).
Defined.

Lemma review_expected_end (v : value) :
  Forall (fun r => expected_end v module_init (result_of r)) (review v module_init).
Proof.
  destruct (integral_type (type_of v)) eqn:Hty.
  - destruct v as [z | b | | | | |]; try discriminate Hty.
    + destruct (Z_gt_le_dec z (present module_init)) as [Hgt | Hle].
      * rewrite (review_int_future z module_init Hgt).
        repeat constructor. simpl. f_equal. apply Z.gtb_lt. simpl in Hgt. lia.
      * assert (Hpast : py_gt (VInt z) (present module_init) = Return false).
        { simpl. f_equal. simpl in Hle. lia. }
        rewrite (review_int_past z Hle).
        repeat match goal with
               | |- context [(z =? ?k)%Z] =>
                   destruct (z =? k)%Z;
                   [repeat constructor; exact Hpast |]
               end.
        apply Forall_pick_default, Forall_forall. intros m _.
        split; [reflexivity | exact Hpast].
    + destruct b; repeat constructor.
  - rewrite (review_non_integral v module_init Hty).
    repeat constructor. exact Hty.
Qed.

(** C7: TypeError (for an input not of an integer type) and ValueError (for
    an int above [present]) are the only failures of [review], for every
    input.  For every int [y <= 2021], [review(y)] returns a string with
    certainty and raises nothing; and every index that
    [randint(0, len(default) - 1)] can give lies within [default], where
    the subscript returns. *)
Theorem review_failure_modes (v : value) (y : Z) :
  y <= present module_init ->
  Forall (fun r => expected_end v module_init (result_of r))
         (review v module_init) /\
  (mass (review (VInt y) module_init) == 1)%Q /\
  Forall (fun r => exists m, result_of r = Return m)
         (review (VInt y) module_init) /\
  Forall (fun r => exists i m,
              result_of r = Return i /\
              0 <= i < len (default module_init) /\
              getitem (default module_init) i = Return m)
         (randint 0 (len (default module_init) - 1) module_init).
Proof.
  intros Hle. split; [exact (review_expected_end v) |].
  split; [| split].
  - rewrite (review_int_past y Hle).
    repeat match goal with
           | |- context [(y =? ?k)%Z] => destruct (y =? k)%Z; [reflexivity |]
           end.
    reflexivity.
  - rewrite (review_int_past y Hle).
    repeat match goal with
           | |- context [(y =? ?k)%Z] =>
               destruct (y =? k)%Z; [repeat econstructor |]
           end.
    apply Forall_pick_default, Forall_forall. intros m _. now exists m.
  - change (randint 0 (len (default module_init) - 1) module_init)
      with (map (fun i => (Qmake 1 4, (@Return Z i, module_init))) [0; 1; 2; 3]).
    apply Forall_map, Forall_forall. intros i Hi.
    unfold result_of, len. simpl in Hi |- *.
    destruct Hi as [<- | [<- | [<- | [<- | []]]]];
      do 2 eexists; (split; [reflexivity | split; [lia | reflexivity]]).
Qed.

Lemma review_failure_modes_witness :
  -10 <= present module_init /\
  Forall (fun r => expected_end (VFloat float_2525) module_init (result_of r))
         (review (VFloat float_2525) module_init) /\
  (mass (review (VInt (-10)) module_init) == 1)%Q /\
  Forall (fun r => exists m, result_of r = Return m)
         (review (VInt (-10)) module_init).
Proof.
  assert (H : -10 <= present module_init) by (simpl; lia).
  split; [exact H |].
  destruct (review_failure_modes (VFloat float_2525) (-10) H) as (He & Hm & Hr & _).
  split; [exact He | split; [exact Hm | exact Hr]].
Defined.

(** C8: in every state the module can be in, a call of [review], with any
    argument, whether it returns or raises and whatever the random draw,
    leaves the globals as they were: [default] and [present] keep the
    values they got at import. *)
Theorem review_no_side_effect (g : globals) (v : value) :
  reachable g ->
  Forall (fun r =>
            globals_after r = g /\
            default (globals_after r) = default module_init /\
            present (globals_after r) = present module_init)
         (review v g).
Proof.
  intros Hg. apply reachable_init in Hg. subst g.
  pose proof (preserves_review v module_init) as Hp.
  rewrite Forall_forall in Hp |- *. intros r Hr.
  rewrite (Hp r Hr). repeat split.
Qed.

Lemma review_no_side_effect_witness :
  reachable module_init /\
  Forall (fun r =>
            globals_after r = module_init /\
            default (globals_after r) = default module_init /\
            present (globals_after r) = present module_init)
         (review (VInt 1) module_init).
Proof.
  split; [exact reach_import |].
  exact (review_no_side_effect module_init (VInt 1) reach_import).
Defined.

(** C9: at import [default] is the list of the four strings "Meh",
    "Boring", "What about it?", "Nothing special", in this order, and
    [present] is the int 2021. *)
Theorem module_constants :
  default module_init = ["Meh"; "Boring"; "What about it?"; "Nothing special"] /\
  len (default module_init) = 4 /\
  present module_init = 2021.
Proof. repeat split. Qed.

(** C10: the type check comes first.  For every input that is not of an
    integer type, in any state, [review] raises TypeError with certainty
    and never ValueError, whatever the input compares to.  The float 2525.0
    is greater than [present], and [review(2525.0)] raises TypeError. *)
Theorem review_type_check_first (v : value) (g : globals) :
  integral_type (type_of v) = false ->
  (mass (review v g) == 1)%Q /\
  Forall (fun r => raises TypeError (result_of r) /\
                   ~ raises ValueError (result_of r))
         (review v g) /\
  py_gt (VFloat float_2525) (present module_init) = Return true /\
  review (VFloat float_2525) module_init
    = dret (Raise TypeError "Expected int, received float", module_init).
Proof.
  intros H. rewrite (review_non_integral v g H).
  split; [reflexivity |].
  split; [| split; reflexivity].
  repeat constructor.
  - eexists. reflexivity.
  - intros [msg Hr]. discriminate Hr.
Qed.

Lemma review_type_check_first_witness :
  integral_type (type_of (VFloat float_2525)) = false /\
  Forall (fun r => raises TypeError (result_of r) /\
                   ~ raises ValueError (result_of r))
         (review (VFloat float_2525) module_init).
Proof.
  assert (H : integral_type (type_of (VFloat float_2525)) = false) by reflexivity.
  split; [exact H |].
  exact (proj1 (proj2 (review_type_check_first (VFloat float_2525) module_init H))).
Defined.

(** * Beyond the import state: [review] in any state, and the tests *)

(** ** Distributions *)

Lemma Qmult_1_l_eq (q : Q) : Qmult 1 q = q.
Proof. destruct q as [n d]. unfold Qmult. simpl. now destruct n. Qed.

Lemma Qmult_1_r_eq (q : Q) : Qmult q 1 = q.
Proof.
  destruct q as [n d]. unfold Qmult. simpl.
  now rewrite Z.mul_1_r, Pos.mul_1_r.
Qed.

Lemma dbind_dret {A B} (a : A) (f : A -> dist B) : dbind (dret a) f = f a.
Proof.
  unfold dbind, dret. simpl. rewrite app_nil_r.
  rewrite <- (map_id (f a)) at 2. apply map_ext.
  intros [q b]. simpl. now rewrite Qmult_1_l_eq.
Qed.

Lemma dbind_point {A B} (d : dist A) (f : A -> dist B) (h : A -> B) :
  (forall a, f a = dret (h a)) ->
  dbind d f = map (fun pa => (fst pa, h (snd pa))) d.
Proof.
  intros Hf. unfold dbind.
  induction d as [| [p a] d IH]; simpl; [reflexivity |].
  rewrite Hf, IH. unfold dret. simpl. now rewrite Qmult_1_r_eq.
Qed.

Lemma bind_load {A B} (name : globals -> A) (k : A -> M B) (g : globals) :
  bind (load name) k g = k (name g) g.
Proof. unfold bind, load. now rewrite dbind_dret. Qed.

Lemma bind_lift_return {A B} (a : A) (k : A -> M B) (g : globals) :
  bind (lift (Return a)) k g = k a g.
Proof. unfold bind, lift. now rewrite dbind_dret. Qed.

Lemma bind_then_ret {A B} (m : M A) (F : A -> B) (g : globals) :
  bind m (fun a => ret (F a)) g
  = map (fun pa => (fst pa,
                    (match fst (snd pa) with
                     | Return a => Return (F a)
                     | Raise k msg => Raise k msg
                     end, snd (snd pa))))
        (m g).
Proof.
  unfold bind.
  apply (dbind_point (m g) _
           (fun r => (match fst r with
                      | Return a => Return (F a)
                      | Raise k msg => Raise k msg
                      end, snd r))).
  intros [[a | k msg] g']; reflexivity.
Qed.

Lemma bind_then_lift {A B} (m : M A) (F : A -> outcome B) (g : globals) :
  bind m (fun a => lift (F a)) g
  = map (fun pa => (fst pa,
                    (match fst (snd pa) with
                     | Return a => F a
                     | Raise k msg => Raise k msg
                     end, snd (snd pa))))
        (m g).
Proof.
  unfold bind.
  apply (dbind_point (m g) _
           (fun r => (match fst r with
                      | Return a => F a
                      | Raise k msg => Raise k msg
                      end, snd r))).
  intros [[a | k msg] g']; reflexivity.
Qed.

(** ** [review] in any state *)

Lemma review_int_past_any (y : Z) (g : globals) :
  y <= present g ->
  review (VInt y) g =
  if (y =? 0)%Z then dret (Return "Jesus Christ what a year!", g)
  else if (y =? 42)%Z then dret (Return "A year worth living for", g)
  else if (y =? 1337)%Z then dret (Return ":sunglasses:", g)
  else if (y =? 1984)%Z then dret (Return "You never felt alone", g)
  else if (y =? 1987)%Z
       then dret (Return "https://www.youtube.com/watch?v=dQw4w9WgXcQ", g)
  else if (y =? 2020)%Z then dret (Return "Sad year :(", g)
  else pick_default g.
Proof.
  intros H.
  assert (Hgt : (y >? present g)%Z = false) by lia.
  unfold review.
  change (isinstance (VInt y) TInt) with true.
  change (negb true) with false. cbv iota.
  rewrite bind_load. unfold py_gt. rewrite bind_lift_return, Hgt.
  unfold py_eq.
  repeat match goal with
         | |- context [(y =? ?k)%Z] => destruct (y =? k)%Z; [reflexivity |]
         end.
  reflexivity.
Qed.

Lemma nth_error_seq {A} (l : list A) :
  map (nth_error l) (seq 0 (List.length l)) = map Some l.
Proof.
  induction l as [| a l IH]; [reflexivity |].
  simpl. f_equal. rewrite <- seq_shift, map_map. exact IH.
Qed.

Lemma getitem_in_range (l : list string) (i : nat) :
  (i < List.length l)%nat ->
  getitem l (Z.of_nat i)
  = match nth_error l i with
    | Some s => Return s
    | None => Raise IndexError "list index out of range"
    end.
Proof.
  intros Hi. unfold getitem, len.
  assert (H0 : (Z.of_nat i <? 0)%Z = false) by lia.
  rewrite H0.
  assert (H1 : ((0 <=? Z.of_nat i) && (Z.of_nat i <? Z.of_nat (List.length l)))%Z%bool
               = true) by (apply andb_true_intro; split; lia).
  rewrite H1, Nat2Z.id. reflexivity.
Qed.

Lemma randint_from_zero (n : Z) (g : globals) :
  0 < n ->
  randint 0 (n - 1) g
  = map (fun i => (Qmake 1 (Z.to_pos n), (Return (Z.of_nat i), g)))
        (seq 0 (Z.to_nat n)).
Proof.
  intros Hn. unfold randint, randrange.
  replace (n - 1 + 1 - 0) with n by lia.
  assert (Hw : (n >? 0)%Z = true) by lia.
  rewrite Hw, bind_then_ret. unfold randbelow. rewrite map_map. reflexivity.
Qed.

Lemma randint_empty (g : globals) :
  randint 0 (0 - 1) g
  = dret (Raise ValueError "empty range for randrange() (0, 0, 0)", g).
Proof. reflexivity. Qed.

Lemma pick_default_nonempty (g : globals) :
  default g <> [] ->
  pick_default g
  = map (fun m => (Qmake 1 (Z.to_pos (len (default g))), (Return m, g)))
        (default g).
Proof.
  intros Hne. unfold pick_default.
  rewrite !bind_load, bind_then_lift.
  assert (Hlen : 0 < len (default g)).
  { unfold len. destruct (default g); [contradiction | simpl; lia]. }
  rewrite (randint_from_zero _ g Hlen), map_map. simpl.
  unfold len at 2. rewrite Nat2Z.id.
  transitivity
    (map (fun o => (Qmake 1 (Z.to_pos (len (default g))),
                    (match o with
                     | Some s => Return s
                     | None => Raise IndexError "list index out of range"
                     end, g)))
         (map (nth_error (default g)) (seq 0 (List.length (default g))))).
  - rewrite map_map. apply map_ext_in. intros i Hi.
    apply in_seq in Hi. rewrite getitem_in_range by lia. reflexivity.
  - rewrite nth_error_seq, map_map. reflexivity.
Qed.

Lemma pick_default_empty (g : globals) :
  default g = [] ->
  pick_default g
  = dret (Raise ValueError "empty range for randrange() (0, 0, 0)", g).
Proof.
  intros He. unfold pick_default. rewrite !bind_load, He.
  change (len (@nil string) - 1) with (0 - 1).
  unfold bind. rewrite randint_empty, dbind_dret. reflexivity.
Qed.

(** ** Total mass and sure results *)

Lemma mass_cons {A} (q : Q) (a : A) (d : dist A) :
  mass ((q, a) :: d) = (q + mass d)%Q.
Proof. reflexivity. Qed.

Lemma mass_dret {A} (a : A) : (mass (dret a) == 1)%Q.
Proof. reflexivity. Qed.

Lemma mass_app {A} (d1 d2 : dist A) :
  (mass (d1 ++ d2)%list == mass d1 + mass d2)%Q.
Proof.
  induction d1 as [| [q a] d1 IH]; simpl app.
  - change (mass (@nil (Q * A))) with 0%Q. ring.
  - rewrite !mass_cons, IH. ring.
Qed.

Lemma mass_scale {A} (p : Q) (d : dist A) :
  (mass (map (fun qb => (Qmult p (fst qb), snd qb)) d) == p * mass d)%Q.
Proof.
  induction d as [| [q a] d IH]; simpl map.
  - change (mass (@nil (Q * A))) with 0%Q. ring.
  - rewrite !mass_cons, IH. simpl fst. ring.
Qed.

Lemma mass_dbind {A B} (d : dist A) (f : A -> dist B) :
  (forall pa, In pa d -> (mass (f (snd pa)) == 1)%Q) ->
  (mass (dbind d f) == mass d)%Q.
Proof.
  induction d as [| [q a] d IH]; intros Hf; [reflexivity |].
  change (dbind ((q, a) :: d) f)
    with (map (fun qb => (Qmult q (fst qb), snd qb)) (f a) ++ dbind d f)%list.
  rewrite mass_app, mass_scale, mass_cons, IH.
  - rewrite (Hf (q, a) (or_introl eq_refl)). ring.
  - intros pa Hpa. apply Hf. now right.
Qed.

Lemma mass_relabel {A B} (h : Q * A -> B) (d : dist A) :
  mass (map (fun r => (fst r, h r)) d) = mass d.
Proof.
  induction d as [| [q a] d IH]; [reflexivity |].
  simpl map. rewrite !mass_cons, IH. reflexivity.
Qed.

Lemma mass_constant_weight {A B} (q : Q) (F : A -> B) (l : list A) :
  (mass (map (fun a => (q, F a)) l) == inject_Z (len l) * q)%Q.
Proof.
  unfold len. induction l as [| a l IH]; simpl map.
  - change (mass (@nil (Q * B))) with 0%Q. simpl. ring.
  - rewrite mass_cons, IH. simpl List.length. rewrite Nat2Z.inj_succ.
    unfold Z.succ. rewrite inject_Z_plus. ring.
Qed.

Lemma mass_uniform {A B} (F : A -> B) (l : list A) :
  l <> [] ->
  (mass (map (fun a => (Qmake 1 (Z.to_pos (len l)), F a)) l) == 1)%Q.
Proof.
  intros Hne. rewrite mass_constant_weight.
  assert (Hlen : 0 < len l).
  { unfold len. destruct l; [contradiction | simpl; lia]. }
  unfold Qeq, Qmult, inject_Z. simpl.
  rewrite Z2Pos.id by exact Hlen. lia.
Qed.

Lemma always_dbind {A B} (P : A -> Prop) (R : B -> Prop)
      (d : dist A) (f : A -> dist B) :
  always P d -> (forall a, P a -> always R (f a)) -> always R (dbind d f).
Proof.
  unfold always. intros Hd Hf. apply Forall_forall. intros r Hr.
  unfold dbind in Hr. apply in_flat_map in Hr as [pa [Hpa Hr]].
  apply in_map_iff in Hr as [qb [<- Hqb]]. simpl.
  rewrite Forall_forall in Hd.
  specialize (Hf (snd pa) (Hd pa Hpa)). rewrite Forall_forall in Hf.
  exact (Hf qb Hqb).
Qed.

Lemma always_dret {A} (P : A -> Prop) (a : A) : P a -> always P (dret a).
Proof. intros H. repeat constructor. exact H. Qed.

Lemma review_bool_int (b : bool) (g : globals) :
  review (VBool b) g = review (VInt (Z.b2z b)) g.
Proof. destruct b; reflexivity. Qed.

Lemma integral_as_int (v : value) :
  integral_type (type_of v) = true ->
  exists y, forall g, review v g = review (VInt y) g.
Proof.
  destruct v as [z | b | | | | |]; intros H; try discriminate H.
  - now exists z.
  - exists (Z.b2z b). apply review_bool_int.
Qed.

Lemma not_special_year (y : Z) :
  ~ In y (map fst special_years) ->
  (y =? 0)%Z = false /\ (y =? 42)%Z = false /\ (y =? 1337)%Z = false /\
  (y =? 1984)%Z = false /\ (y =? 1987)%Z = false /\ (y =? 2020)%Z = false.
Proof.
  intros H. repeat split; apply Z.eqb_neq; intros ->; apply H; simpl; tauto.
Qed.

Lemma review_int_special (y : Z) (m : string) (g : globals) :
  y <= present g -> In (y, m) special_years ->
  review (VInt y) g = dret (Return m, g).
Proof.
  intros Hle Hin. rewrite (review_int_past_any y g Hle).
  simpl in Hin.
  repeat (destruct Hin as [Hin | Hin];
          [injection Hin as <- <-; reflexivity |]).
  contradiction.
Qed.

Lemma review_int_other (y : Z) (g : globals) :
  y <= present g -> ~ In y (map fst special_years) ->
  review (VInt y) g = pick_default g.
Proof.
  intros Hle Hns. rewrite (review_int_past_any y g Hle).
  destruct (not_special_year y Hns) as (-> & -> & -> & -> & -> & ->).
  reflexivity.
Qed.

Lemma special_year_dec (y : Z) :
  (exists m, In (y, m) special_years) \/ ~ In y (map fst special_years).
Proof.
  destruct (in_dec Z.eq_dec y (map fst special_years)) as [Hin | Hout];
    [left | now right].
  apply in_map_iff in Hin as [[y' m] [Hy Hin]]. simpl in Hy. subst y'.
  now exists m.
Qed.

(** The shape of [review v g]: one sure result, or one entry of a
    non-empty [default] drawn by position. *)
Lemma review_shape (v : value) (g : globals) :
  (exists o, review v g = dret (o, g) /\ closed_end g (o, g)) \/
  (default g <> [] /\
   review v g
   = map (fun m => (Qmake 1 (Z.to_pos (len (default g))), (Return m, g)))
         (default g)).
Proof.
  destruct (integral_type (type_of v)) eqn:Hty.
  - destruct (integral_as_int v Hty) as [y Hy]. rewrite Hy. clear Hy Hty.
    destruct (Z_gt_le_dec y (present g)) as [Hgt | Hle].
    + left. eexists. split; [exact (review_int_future y g Hgt) |].
      split; [reflexivity | simpl; tauto].
    + destruct (special_year_dec y) as [[m Hm] | Hns].
      * left. eexists. split; [exact (review_int_special y m g Hle Hm) |].
        split; [reflexivity |]. simpl fst. left.
        apply in_map_iff. now exists (y, m).
      * rewrite (review_int_other y g Hle Hns).
        destruct (default g) as [| d0 ds] eqn:Hd.
        -- left. eexists. split; [exact (pick_default_empty g Hd) |].
           split; [reflexivity | simpl; tauto].
        -- right. rewrite <- Hd.
           assert (Hne : default g <> []) by (rewrite Hd; discriminate).
           split; [exact Hne | exact (pick_default_nonempty g Hne)].
  - left. eexists. split; [exact (review_non_integral v g Hty) |].
    split; [reflexivity | simpl; tauto].
Qed.

Lemma review_mass (v : value) (g : globals) : (mass (review v g) == 1)%Q.
Proof.
  destruct (review_shape v g) as [[o [-> _]] | [Hne ->]].
  - apply mass_dret.
  - apply mass_uniform. exact Hne.
Qed.

Lemma prob_cons {A} (ev : A -> bool) (q : Q) (a : A) (d : dist A) :
  prob ev ((q, a) :: d) = if ev a then (q + prob ev d)%Q else prob ev d.
Proof. unfold prob. simpl. now destruct (ev a). Qed.

Lemma prob_constant_weight (m : string) (q : Q) (g : globals) (l : list string) :
  (prob (fun og => returns m (fst og)) (map (fun x => (q, (Return x, g))) l)
   == inject_Z (Z.of_nat (count_occ string_dec l m)) * q)%Q.
Proof.
  induction l as [| x l IH]; simpl map.
  - change (prob (fun og => returns m (fst og)) (@nil (Q * (outcome string * globals))))
      with 0%Q. simpl. ring.
  - rewrite prob_cons. simpl fst. simpl returns. simpl count_occ.
    destruct (String.eqb_spec x m) as [-> | Hxm].
    + destruct (string_dec m m) as [_ | Hmm]; [| contradiction].
      rewrite IH, Nat2Z.inj_succ. unfold Z.succ. rewrite inject_Z_plus. ring.
    + destruct (string_dec x m) as [Heq | _]; [contradiction | exact IH].
Qed.

(** ** Test code *)

Lemma tbind_point {A B} (t : T A) (f : A -> T B) (a : A) (g g' : globals) :
  t g = dret (inl a, g') -> tbind t f g = f a g'.
Proof. intros H. unfold tbind. now rewrite H, dbind_dret. Qed.

Lemma tbind_stop {A B} (t : T A) (f : A -> T B) (p : problem) (g g' : globals) :
  t g = dret (inr p, g') -> tbind t f g = dret (inr p, g').
Proof. intros H. unfold tbind. now rewrite H, dbind_dret. Qed.

Lemma call_return {A} (m : M A) (a : A) (g g' : globals) :
  m g = dret (Return a, g') -> call m g = dret (inl a, g').
Proof. intros H. unfold call. now rewrite H. Qed.

Lemma call_raise {A} (m : M A) (k : exn_kind) (msg : string) (g g' : globals) :
  m g = dret (Raise k msg, g') -> call m g = dret (inr (Error k msg), g').
Proof. intros H. unfold call. now rewrite H. Qed.

Lemma tsurely_point {A} (P : A -> Prop) (t : T A) (a : A) (g : globals) :
  t g = dret (inl a, g) -> P a -> tsurely P t g.
Proof.
  intros H HP. unfold tsurely. rewrite H.
  split; [apply mass_dret | apply always_dret; now exists a].
Qed.

Lemma call_surely {A} (P : A -> Prop) (m : M A) (g : globals) :
  surely P m g -> tsurely P (call m) g.
Proof.
  intros [Hm Ha]. split.
  - unfold call.
    rewrite (mass_relabel
               (fun r => (match fst (snd r) with
                          | Return a => inl a
                          | Raise k msg => inr (Error k msg)
                          end, snd (snd r))) (m g)).
    exact Hm.
  - unfold call, always in *. apply Forall_map.
    eapply Forall_impl; [| exact Ha].
    intros [q [o g']] [a [Ho [HP Hg]]]. simpl in *. subst o.
    now exists a.
Qed.

(** After a step that surely returns, the rest decides. *)
Lemma after_sure {A B} (P : A -> Prop) (R : (B + problem) * globals -> Prop)
      (t : T A) (f : A -> T B) (g : globals) :
  tsurely P t g ->
  (forall a, P a -> (mass (f a g) == 1)%Q /\ always R (f a g)) ->
  (mass (tbind t f g) == 1)%Q /\ always R (tbind t f g).
Proof.
  intros [Hm Ha] Hf. unfold tbind. split.
  - rewrite mass_dbind; [exact Hm |].
    intros pa Hpa. unfold always in Ha. rewrite Forall_forall in Ha.
    destruct (Ha pa Hpa) as [a [Hfst [HP Hg]]].
    rewrite Hfst, Hg. apply Hf, HP.
  - eapply always_dbind; [exact Ha |].
    intros [o g'] [a [Hfst [HP Hg]]]. simpl in *. subst o g'.
    apply Hf, HP.
Qed.

Lemma tsurely_bind {A B} (P : A -> Prop) (Q : B -> Prop)
      (t : T A) (f : A -> T B) (g : globals) :
  tsurely P t g -> (forall a, P a -> tsurely Q (f a) g) ->
  tsurely Q (tbind t f) g.
Proof. intros Ht Hf. exact (after_sure P _ t f g Ht Hf). Qed.

Lemma tsurely_after_point {A B} (Q : B -> Prop)
      (t : T A) (f : A -> T B) (a : A) (g : globals) :
  t g = dret (inl a, g) -> tsurely Q (f a) g -> tsurely Q (tbind t f) g.
Proof. intros H Hf. unfold tsurely. now rewrite (tbind_point t f a g g H). Qed.

Lemma review_surely_default (y : Z) (g : globals) :
  y <= present g -> ~ In y (map fst special_years) -> default g <> [] ->
  surely (fun m => In m (default g)) (review (VInt y)) g.
Proof.
  intros Hle Hns Hne.
  split; [apply review_mass |].
  rewrite (review_int_other y g Hle Hns), (pick_default_nonempty g Hne).
  apply Forall_map, Forall_forall. intros m Hm. now exists m.
Qed.

Lemma py_in_member (m : string) (l : list string) : In m l -> py_in m l = true.
Proof.
  intros H. unfold py_in. apply existsb_exists.
  exists m. split; [exact H | apply String.eqb_refl].
Qed.

Lemma assertIn_default (y : Z) (g : globals) :
  y <= present g -> ~ In y (map fst special_years) -> default g <> [] ->
  tsurely (fun _ => True)
          (r <~ call (review (VInt y)) ;;
           d <~ call (load default) ;;
           assertIn r d) g.
Proof.
  intros Hle Hns Hne.
  eapply tsurely_bind; [exact (call_surely _ _ g (review_surely_default y g Hle Hns Hne)) |].
  intros r Hr. simpl in Hr.
  apply (tsurely_after_point _ _ _ (default g)); [reflexivity |].
  unfold assertIn. rewrite (py_in_member r (default g) Hr).
  now apply (tsurely_point _ _ tt).
Qed.

Lemma subTest_special (y : Z) (m : string) (g : globals) :
  In (y, m) special_years ->
  subTest (r <~ call (review (VInt y)) ;; assertEqual r m) g
  = dret (inl (if (y >? present g)%Z
               then [Error ValueError
                       ("Can't review a year that has not happened yet (year > "
                          ++ str_int (present g) ++ ")")]
               else []), g).
Proof.
  intros Hin. unfold subTest.
  destruct (Z_gt_le_dec y (present g)) as [Hgt | Hle].
  - assert (Hb : (y >? present g)%Z = true) by lia. rewrite Hb.
    rewrite (tbind_stop _ _ _ g g (call_raise _ _ _ g g (review_int_future y g Hgt))).
    reflexivity.
  - assert (Hb : (y >? present g)%Z = false) by lia. rewrite Hb.
    rewrite (tbind_point _ _ m g g
               (call_return _ _ g g (review_int_special y m g Hle Hin))).
    unfold assertEqual. rewrite String.eqb_refl. reflexivity.
Qed.

Lemma assertIn_default_then {B} (R : (B + problem) * globals -> Prop)
      (rest : T B) (y : Z) (g : globals) :
  y <= present g -> ~ In y (map fst special_years) -> default g <> [] ->
  (mass (rest g) == 1)%Q /\ always R (rest g) ->
  let block := (r <~ call (review (VInt y)) ;;
                d <~ call (load default) ;;
                _ <~ assertIn r d ;;
                rest) in
  (mass (block g) == 1)%Q /\ always R (block g).
Proof.
  intros Hle Hns Hne Hrest block. unfold block.
  eapply after_sure;
    [exact (call_surely _ _ g (review_surely_default y g Hle Hns Hne)) |].
  intros r Hr. simpl in Hr.
  rewrite (tbind_point _ _ (default g) g g) by reflexivity.
  eapply (after_sure (fun _ => True)); [| intros _ _; exact Hrest].
  unfold assertIn. rewrite (py_in_member r (default g) Hr).
  now apply (tsurely_point _ _ tt).
Qed.

Lemma not_special_1 : ~ In 1 (map fst special_years).
Proof. simpl. lia. Qed.

Lemma not_special_minus_10 : ~ In (-10) (map fst special_years).
Proof. simpl. lia. Qed.

Lemma not_special_2021 : ~ In 2021 (map fst special_years).
Proof. simpl. lia. Qed.

Lemma review_empty_default_any (y : Z) (g : globals) :
  y <= present g -> ~ In y (map fst special_years) -> default g = [] ->
  exists msg, review (VInt y) g = dret (Raise ValueError msg, g).
Proof.
  intros Hle Hns He. eexists.
  rewrite (review_int_other y g Hle Hns). exact (pick_default_empty g He).
Qed.

(** ** Further properties of [review] and of its tests *)



(** X2: in any state, a special year that is not above [present] gets its
    fixed answer with certainty, whatever [default] holds, the empty list
    included: neither [default] nor the random source is consulted. *)
Theorem review_special_any_state (y : Z) (m : string) (g : globals) :
  y <= present g ->
  In (y, m) special_years ->
  review (VInt y) g = dret (Return m, g).
Proof.
  intros Hle Hin. rewrite (review_int_past_any y g Hle).
  simpl in Hin.
  destruct Hin as [Hin | [Hin | [Hin | [Hin | [Hin | [Hin | []]]]]]];
    injection Hin as <- <-; reflexivity.
Qed.

Lemma review_special_any_state_witness :
  1337 <= present (mkGlobals [] 1400) /\
  In (1337, ":sunglasses:") special_years /\
  review (VInt 1337) (mkGlobals [] 1400)
  = dret (Return ":sunglasses:", mkGlobals [] 1400).
Proof.
  assert (H1 : 1337 <= present (mkGlobals [] 1400)) by (simpl; lia).
  assert (H2 : In (1337, ":sunglasses:") special_years)
    by (simpl; right; right; left; reflexivity).
  split; [exact H1 | split; [exact H2 |]].
  exact (review_special_any_state 1337 ":sunglasses:" (mkGlobals [] 1400) H1 H2).
Defined.

(** X3: in any state with a non-empty [default], [review] of an int that
    is not above [present] and not a special year returns one entry of
    [default], each position being drawn with probability [1/len(default)]:
    a string has the probability of the number of times it is listed. *)
Theorem review_default_by_position (y : Z) (g : globals) :
  y <= present g ->
  ~ In y (map fst special_years) ->
  default g <> [] ->
  review (VInt y) g
  = map (fun m => (Qmake 1 (Z.to_pos (len (default g))), (Return m, g)))
        (default g) /\
  forall m,
    (prob (fun og => returns m (fst og)) (review (VInt y) g)
     == inject_Z (Z.of_nat (count_occ string_dec (default g) m))
        * Qmake 1 (Z.to_pos (len (default g))))%Q.
Proof.
  intros Hle Hns Hne.
  rewrite (review_int_other y g Hle Hns), (pick_default_nonempty g Hne).
  split; [reflexivity |].
  intros m. apply prob_constant_weight.
Qed.

Lemma review_default_by_position_witness :
  5 <= present (mkGlobals ["a"; "b"; "a"] 10) /\
  ~ In 5 (map fst special_years) /\
  default (mkGlobals ["a"; "b"; "a"] 10) <> [] /\
  (prob (fun og => returns "a" (fst og))
        (review (VInt 5) (mkGlobals ["a"; "b"; "a"] 10))
   == inject_Z 2 * Qmake 1 3)%Q.
Proof.
  assert (H1 : 5 <= present (mkGlobals ["a"; "b"; "a"] 10)) by (simpl; lia).
  assert (H2 : ~ In 5 (map fst special_years)) by (simpl; lia).
  assert (H3 : default (mkGlobals ["a"; "b"; "a"] 10) <> []) by (simpl; discriminate).
  split; [exact H1 | split; [exact H2 | split; [exact H3 |]]].
  exact (proj2 (review_default_by_position 5 (mkGlobals ["a"; "b"; "a"] 10) H1 H2 H3) "a").
Defined.

(** X4: in a state where [default] is empty, [review] of an int that is
    not above [present] and not a special year raises ValueError with
    certainty (the empty range is refused by [randint]); the subscript is
    not reached, so there is no IndexError. *)
Theorem review_empty_default (y : Z) (g : globals) :
  y <= present g ->
  ~ In y (map fst special_years) ->
  default g = [] ->
  exists msg, review (VInt y) g = dret (Raise ValueError msg, g).
Proof.
  intros Hle Hns He.
  exists "empty range for randrange() (0, 0, 0)".
  rewrite (review_int_other y g Hle Hns).
  unfold pick_default. rewrite !bind_load, He.
  change (len (@nil string) - 1) with (0 - 1).
  unfold bind. rewrite randint_empty, dbind_dret. reflexivity.
Qed.

Lemma review_empty_default_witness :
  1 <= present (mkGlobals [] 2021) /\
  ~ In 1 (map fst special_years) /\
  default (mkGlobals [] 2021) = [] /\
  exists msg,
    review (VInt 1) (mkGlobals [] 2021) = dret (Raise ValueError msg, mkGlobals [] 2021).
Proof.
  assert (H1 : 1 <= present (mkGlobals [] 2021)) by (simpl; lia).
  assert (H3 : default (mkGlobals [] 2021) = []) by reflexivity.
  split; [exact H1 | split; [exact not_special_1 | split; [exact H3 |]]].
  exact (review_empty_default 1 (mkGlobals [] 2021) H1 not_special_1 H3).
Defined.

(** X5: in any state and for any argument, however a call of [review]
    ends, the globals are as before; a returned string is one of the six
    fixed answers or an entry of [default]; a raised exception is a
    TypeError or a ValueError, never an IndexError or a KeyError. *)
Theorem review_closed_world (v : value) (g : globals) :
  always (closed_end g) (review v g).
Proof.
  destruct (review_shape v g) as [[o [Hpoint Ho]] | [Hne Hdraw]].
  - rewrite Hpoint. apply always_dret. exact Ho.
  - rewrite Hdraw. apply Forall_map, Forall_forall. intros m Hm.
    split; [reflexivity |]. simpl fst. right. exact Hm.
Qed.







